(** * CODAP metadata client (docs/examples/python/metadata_client.py)

    A shallow embedding of the Python example client: the values the
    client receives from the JSON decoder, the exceptions it raises and
    catches, the [requests] session it talks through, and the methods of
    [CODAPMetadataClient].  Python's exceptions and [print] are modelled
    by a small monad that carries the lines written to standard output
    and either a returned value or a raised exception. *)

From Stdlib Require Import ZArith List String Ascii Bool Lia DecimalString.
Import ListNotations.
Open Scope string_scope.
Open Scope Z_scope.
Set Warnings "-register-all".

(** ** Python values

    What [response.json()] can return, and what the client's own
    literals build: [None], booleans, integers, floats, strings, lists
    and dictionaries with string keys.  A float is only ever formatted
    by this client, so it is carried by its [repr]. *)

Inductive value : Type :=
| VNone
| VBool (b : bool)
| VInt (n : Z)
| VFloat (repr : string)
| VStr (s : string)
| VList (items : list value)
| VDict (items : list (string * value)).

(** A dictionary is the list of its items in insertion order; the first
    binding of a key is the one a lookup finds. *)
Fixpoint lookup {A : Type} (d : list (string * A)) (k : string) : option A :=
  match d with
  | [] => None
  | (k', v) :: d' => if String.eqb k' k then Some v else lookup d' k
  end.

(** [d[k] = v] *)
Fixpoint dict_set {A : Type} (d : list (string * A)) (k : string) (v : A)
  : list (string * A) :=
  match d with
  | [] => [(k, v)]
  | (k', v') :: d' =>
      if String.eqb k' k then (k', v) :: d' else (k', v') :: dict_set d' k v
  end.

(** ** Formatting: [str] and [repr] *)

Definition string_of_Z (n : Z) : string :=
  NilZero.string_of_int (Z.to_int n).

Definition hex_digit (n : nat) : ascii :=
  match n with
  | 0 => "0" | 1 => "1" | 2 => "2" | 3 => "3" | 4 => "4" | 5 => "5"
  | 6 => "6" | 7 => "7" | 8 => "8" | 9 => "9" | 10 => "a" | 11 => "b"
  | 12 => "c" | 13 => "d" | 14 => "e" | _ => "f"
  end%nat%char.

Fixpoint contains_char (c : ascii) (s : string) : bool :=
  match s with
  | EmptyString => false
  | String c' s' => Ascii.eqb c c' || contains_char c s'
  end.

(** One character of a string literal quoted with [q].  Characters above
    127 are written as they are. *)
Definition escape_char (q c : ascii) : string :=
  let n := nat_of_ascii c in
  if Ascii.eqb c "\" then "\\"
  else if Ascii.eqb c q then String "\" (String q EmptyString)
  else if Nat.eqb n 10 then "\n"
  else if Nat.eqb n 13 then "\r"
  else if Nat.eqb n 9 then "\t"
  else if Nat.ltb n 32 || Nat.eqb n 127 then
    String "\" (String "x" (String (hex_digit (n / 16))
                             (String (hex_digit (n mod 16)) EmptyString)))
  else String c EmptyString.

Fixpoint escape (q : ascii) (s : string) : string :=
  match s with
  | EmptyString => EmptyString
  | String c s' => escape_char q c ++ escape q s'
  end.

(** [repr] of a [str]: single quotes, unless the string holds a single
    quote and no double quote. *)
Definition double_quote : ascii := ascii_of_nat 34.

Definition repr_str (s : string) : string :=
  let q : ascii :=
    if contains_char "'" s && negb (contains_char double_quote s)
    then double_quote else "'"%char in
  String q (escape q s ++ String q EmptyString).

Fixpoint py_repr (v : value) : string :=
  match v with
  | VNone => "None"
  | VBool true => "True"
  | VBool false => "False"
  | VInt n => string_of_Z n
  | VFloat r => r
  | VStr s => repr_str s
  | VList l => "[" ++ String.concat ", " (map py_repr l) ++ "]"
  | VDict d =>
      "{" ++ String.concat ", "
               (map (fun '(k, x) => repr_str k ++ ": " ++ py_repr x) d) ++ "}"
  end.

(** [str(v)], which an f-string applies to each interpolated value. *)
Definition py_str (v : value) : string :=
  match v with
  | VStr s => s
  | _ => py_repr v
  end.

(** [a or b] on strings: [a] unless it is empty. *)
Definition str_or (a b : string) : string :=
  match a with
  | EmptyString => b
  | _ => a
  end.

(** Truth value of an [Optional[str]]: [None] and the empty string are
    false. *)
Definition truthy (o : option string) : bool :=
  match o with
  | None | Some EmptyString => false
  | Some _ => true
  end.

(** [s.rstrip('/')] *)
Fixpoint rstrip_slash (s : string) : string :=
  match s with
  | EmptyString => EmptyString
  | String c s' =>
      match rstrip_slash s' with
      | EmptyString =>
          if Ascii.eqb c "/" then EmptyString else String c EmptyString
      | r => String c r
      end
  end.

(** ** Exceptions *)

(** Attributes every [CODAPMetadataError] has: the message given to
    [Exception.__init__], [code] and [status_code]. *)
Record attrs : Type := Attrs {
  message : string;
  code : option string;
  status_code : option Z
}.

(** The exception classes of the module; the first constructor is an
    instance of the base class itself. *)
Inductive codap_error : Type :=
| CODAPMetadataError (a : attrs)
| AuthenticationError (a : attrs)
| SessionExpiredError (a : attrs)
| VersionNotSupportedError (a : attrs)
    (requested_version supported_versions : value).

(** [VersionNotSupportedError.__init__]: the base initialiser is called
    with the message and the code only. *)
Definition VersionNotSupportedError_init
    (message : string) (requested_version supported_versions : value)
  : codap_error :=
  VersionNotSupportedError (Attrs message (Some "VERSION_NOT_SUPPORTED") None)
    requested_version supported_versions.

Definition attrs_of (e : codap_error) : attrs :=
  match e with
  | CODAPMetadataError a | AuthenticationError a | SessionExpiredError a
  | VersionNotSupportedError a _ _ => a
  end.

(** What Python can raise in these methods.  The error of
    [response.json()] is a [ValueError]; from requests 2.27 on it is a
    [requests.RequestException] as well, which the flag records. *)
Inductive exn : Type :=
| Codap (e : codap_error)
| RequestException (msg : string)
| JSONDecodeError (is_request_exception : bool) (msg : string)
| KeyError (key : string)
| TypeError
| AttributeError.

(** [str(e)] for an [e] that [except requests.RequestException as e]
    catches; [None] for an exception the clause does not match. *)
Definition as_RequestException (e : exn) : option string :=
  match e with
  | RequestException msg => Some msg
  | JSONDecodeError true msg => Some msg
  | _ => None
  end.

(** The same for [except (json.JSONDecodeError, ValueError)]. *)
Definition is_ValueError (e : exn) : bool :=
  match e with
  | JSONDecodeError _ _ => true
  | _ => false
  end.

(** The same for [except CODAPMetadataError as e]; [str(e)] is the
    message. *)
Definition as_CODAPMetadataError (e : exn) : option string :=
  match e with
  | Codap c => Some (message (attrs_of c))
  | _ => None
  end.

(** ** The monad: standard output and exceptions *)

Inductive outcome (A : Type) : Type :=
| Return (a : A)
| Raise (e : exn).
Arguments Return {A} a.
Arguments Raise {A} e.

Definition Py (A : Type) : Type := (list string * outcome A)%type.

Definition ret {A} (a : A) : Py A := ([], Return a).
Definition raise {A} (e : exn) : Py A := ([], Raise e).
Definition print (line : string) : Py unit := ([line], Return tt).
Definition lift {A} (o : outcome A) : Py A := ([], o).

Definition bind {A B} (m : Py A) (f : A -> Py B) : Py B :=
  match m with
  | (out, Return a) => let (out', r) := f a in ((out ++ out')%list, r)
  | (out, Raise e) => (out, Raise e)
  end.

(** [try: m  except ...: handler]; the handler answers [None] for an
    exception no clause matches, which then propagates. *)
Definition try_except {A} (m : Py A) (handler : exn -> option (Py A))
  : Py A :=
  match m with
  | (out, Raise e) =>
      match handler e with
      | Some h => let (out', r) := h in ((out ++ out')%list, r)
      | None => (out, Raise e)
      end
  | _ => m
  end.

Definition stdout {A} (m : Py A) : list string := fst m.
Definition result {A} (m : Py A) : outcome A := snd m.

Notation "x <- m ;; k" := (bind m (fun x => k))
  (at level 61, m at next level, right associativity).
Notation "m ;; k" := (bind m (fun _ => k))
  (at level 61, right associativity).

(** ** Operations on values *)

(** [v.get(key, default)]: only a dictionary has the method. *)
Definition get (v : value) (key : string) (default : value) : Py value :=
  match v with
  | VDict d =>
      match lookup d key with
      | Some x => ret x
      | None => ret default
      end
  | _ => raise AttributeError
  end.

(** [v[key]] with a string key. *)
Definition subscript (v : value) (key : string) : Py value :=
  match v with
  | VDict d =>
      match lookup d key with
      | Some x => ret x
      | None => raise (KeyError key)
      end
  | _ => raise TypeError
  end.

Fixpoint characters (s : string) : list value :=
  match s with
  | EmptyString => []
  | String c s' => VStr (String c EmptyString) :: characters s'
  end.

(** [for x in v]: the items of a list, the keys of a dictionary, the
    characters of a string. *)
Definition iterate (v : value) : Py (list value) :=
  match v with
  | VList l => ret l
  | VDict d => ret (map (fun kv => VStr (fst kv)) d)
  | VStr s => ret (characters s)
  | _ => raise TypeError
  end.

(** [v == s] for a string [s]. *)
Definition eq_str (v : value) (s : string) : bool :=
  match v with
  | VStr t => String.eqb t s
  | _ => false
  end.

(** ** The HTTP side: [requests] *)

Definition lower_char (c : ascii) : ascii :=
  let n := nat_of_ascii c in
  if Nat.leb 65 n && Nat.leb n 90 then ascii_of_nat (n + 32) else c.

Fixpoint lower (s : string) : string :=
  match s with
  | EmptyString => EmptyString
  | String c s' => String (lower_char c) (lower s')
  end.

(** [headers.get(name, default)] on the case-insensitive dictionary of
    a response's headers. *)
Fixpoint headers_get (h : list (string * string)) (name default : string)
  : string :=
  match h with
  | [] => default
  | (k, v) :: h' =>
      if String.eqb (lower k) (lower name) then v
      else headers_get h' name default
  end.

Module Response.
(** [json] is what [response.json()] does on [text]: the decoder is
    the library's, so its answer is part of the response. *)
Record t : Type := mk {
  status_code : Z;
  headers : list (string * string);
  text : string;
  json : outcome value
}.
End Response.

Module Request.
(** The arguments of one [session.get(url, headers=..., timeout=...)]. *)
Record t : Type := mk {
  url : string;
  headers : list (string * string);
  timeout : Z
}.
End Request.

Module Session.
(** A [requests.Session]: its default headers and its [get] method,
    which answers with a response or raises. *)
Record t : Type := mk {
  headers : list (string * string);
  get : Request.t -> outcome Response.t
}.

(** [session.headers.update(new)] *)
Definition update_headers (s : t) (new : list (string * string)) : t :=
  mk (fold_left (fun h kv => dict_set h (fst kv) (snd kv)) new (headers s))
     (get s).
End Session.

(** ** The data classes *)

Module VersionNegotiationResult.
(** The optional fields hold [None] ([VNone]) unless the constructor
    call gives them. *)
Record t : Type := mk {
  success : bool;
  version : value;
  error : value;
  requested_version : value;
  supported_versions : value;
  manifest : value
}.
End VersionNegotiationResult.

Record CODAPMetadataClient : Type := Client {
  base_url : string;
  session_code : string;
  timeout : Z;
  session : Session.t
}.

(** [CODAPMetadataClient.__init__]; [fresh] is what [requests.Session()]
    returns. *)
Definition CODAPMetadataClient_init (fresh : Session.t)
    (base_url session_code : string) (timeout : Z) : CODAPMetadataClient :=
  Client (rstrip_slash base_url) session_code timeout
    (Session.update_headers fresh
       [("Content-Type", "application/json");
        ("User-Agent", "CODAP-Metadata-Client-Python/1.0.0")]).

Definition default_timeout : Z := 30.

(** ** The methods of [CODAPMetadataClient] *)

(** [_handle_error_response]: every path ends in a [raise]. *)
Definition _handle_error_response (self : CODAPMetadataClient)
    (response : Response.t) : Py unit :=
  error_data <-
    try_except (lift (Response.json response))
      (fun e =>
         if is_ValueError e then
           Some (ret (VDict [("error",
                              VStr (str_or (Response.text response)
                                           "Unknown error"))]))
         else None) ;;
  let status_code := Response.status_code response in
  error_message <-
    get error_data "error"
        (VStr ("HTTP " ++ string_of_Z status_code ++ " error")) ;;
  if status_code =? 400 then
    raise (Codap (CODAPMetadataError
             (Attrs ("Bad Request: " ++ py_str error_message)
                    None (Some status_code))))
  else if status_code =? 401 then
    raise (Codap (AuthenticationError
             (Attrs ("Unauthorized: " ++ py_str error_message)
                    (Some "AUTHENTICATION_FAILED") (Some status_code))))
  else if status_code =? 403 then
    raise (Codap (SessionExpiredError
             (Attrs ("Forbidden: " ++ py_str error_message)
                    (Some "SESSION_EXPIRED") (Some status_code))))
  else if status_code =? 405 then
    raise (Codap (CODAPMetadataError
             (Attrs ("Method Not Allowed: " ++ py_str error_message)
                    None (Some status_code))))
  else if status_code =? 406 then
    requested_version <- get error_data "requestedVersion" (VStr "unknown") ;;
    supported_versions <- get error_data "supportedVersions" (VList []) ;;
    raise (Codap (VersionNotSupportedError_init
             ("Unsupported version: " ++ py_str requested_version)
             requested_version supported_versions))
  else if status_code =? 500 then
    raise (Codap (CODAPMetadataError
             (Attrs ("Internal Server Error: " ++ py_str error_message)
                    None (Some status_code))))
  else
    raise (Codap (CODAPMetadataError
             (Attrs ("HTTP " ++ string_of_Z status_code ++ ": "
                       ++ py_str error_message)
                    None (Some status_code)))).

(** The first lines of [get_tool_manifest]: the URL and the headers of
    the call, handed to [session.get] with the client's timeout. *)
Definition build_request (self : CODAPMetadataClient)
    (api_version : option string) : Request.t :=
  let url :=
    base_url self ++ "/api/sessions/" ++ session_code self ++ "/metadata" in
  let headers : list (string * string) := [] in
  let headers :=
    match api_version with
    | Some v => if truthy api_version
                then dict_set headers "Accept-Version" v else headers
    | None => headers
    end in
  Request.mk url headers (timeout self).

(** [except requests.RequestException as e] of [get_tool_manifest]. *)
Definition on_RequestException (e : exn) : option (Py value) :=
  match as_RequestException e with
  | Some msg =>
      Some (raise (Codap (CODAPMetadataError
              (Attrs ("Network error: " ++ msg) None None))))
  | None => None
  end.

Definition get_tool_manifest (self : CODAPMetadataClient)
    (api_version : option string) : Py value :=
  let request := build_request self api_version in
  try_except
    (response <- lift (Session.get (session self) request) ;;
     print ("API Version: "
              ++ headers_get (Response.headers response)
                   "api-version" "Not provided") ;;
     print ("Tool Manifest Version: "
              ++ headers_get (Response.headers response)
                   "tool-manifest-version" "Not provided") ;;
     print ("Supported Versions: "
              ++ headers_get (Response.headers response)
                   "supported-versions" "Not provided") ;;
     if Response.status_code response =? 200 then
       lift (Response.json response)
     else
       _handle_error_response self response ;;
       ret VNone)
    on_RequestException.

(** [any(tool['name'] == tool_name for tool in tools)]: the generator is
    consumed up to the first true item. *)
Fixpoint any_name_is (tools : list value) (tool_name : string) : Py bool :=
  match tools with
  | [] => ret false
  | tool :: rest =>
      name <- subscript tool "name" ;;
      if eq_str name tool_name then ret true
      else any_name_is rest tool_name
  end.

Definition is_tool_available (self : CODAPMetadataClient)
    (tool_name : string) : Py bool :=
  try_except
    (manifest <- get_tool_manifest self None ;;
     tools_value <- subscript manifest "tools" ;;
     tools <- iterate tools_value ;;
     any_name_is tools tool_name)
    (fun e =>
       match as_CODAPMetadataError e with
       | Some msg =>
           Some (print ("Error checking tool availability: " ++ msg) ;;
                 ret false)
       | None => None
       end).

(** The [for] loop of [get_tool_schema], with its [return] inside. *)
Fixpoint find_schema (tools : list value) (tool_name : string) : Py value :=
  match tools with
  | [] => ret VNone
  | tool :: rest =>
      name <- subscript tool "name" ;;
      if eq_str name tool_name then get tool "inputSchema" VNone
      else find_schema rest tool_name
  end.

Definition get_tool_schema (self : CODAPMetadataClient)
    (tool_name : string) : Py value :=
  try_except
    (manifest <- get_tool_manifest self None ;;
     tools_value <- subscript manifest "tools" ;;
     tools <- iterate tools_value ;;
     find_schema tools tool_name)
    (fun e =>
       match as_CODAPMetadataError e with
       | Some msg =>
           Some (print ("Error getting tool schema: " ++ msg) ;; ret VNone)
       | None => None
       end).

(** The list comprehension of [list_available_tools]. *)
Fixpoint name_description (tools : list value) : Py (list value) :=
  match tools with
  | [] => ret []
  | tool :: rest =>
      name <- subscript tool "name" ;;
      description <- subscript tool "description" ;;
      items <- name_description rest ;;
      ret (VDict [("name", name); ("description", description)] :: items)
  end.

Definition list_available_tools (self : CODAPMetadataClient)
  : Py (list value) :=
  try_except
    (manifest <- get_tool_manifest self None ;;
     tools_value <- subscript manifest "tools" ;;
     tools <- iterate tools_value ;;
     name_description tools)
    (fun e =>
       match as_CODAPMetadataError e with
       | Some msg => Some (print ("Error listing tools: " ++ msg) ;; ret [])
       | None => None
       end).

Definition test_version_negotiation (self : CODAPMetadataClient)
    (requested_version : string) : Py VersionNegotiationResult.t :=
  try_except
    (manifest <- get_tool_manifest self (Some requested_version) ;;
     version <- subscript manifest "apiVersion" ;;
     ret (VersionNegotiationResult.mk true version VNone VNone VNone
            manifest))
    (fun e =>
       match e with
       | Codap (VersionNotSupportedError a requested supported) =>
           Some (ret (VersionNegotiationResult.mk false VNone
                        (VStr (message a)) requested supported VNone))
       | _ => None
       end).

(** ** The example functions of the module *)

Definition newline : string := String (ascii_of_nat 10) EmptyString.

(** [except CODAPMetadataError as e: print(f'<label>{e}')] *)
Definition print_module_error (label : string) (e : exn)
  : option (Py unit) :=
  match as_CODAPMetadataError e with
  | Some msg => Some (print (label ++ msg))
  | None => None
  end.

(** [test_error_scenarios]; [requests_Session] is what each call of
    [requests.Session()] returns.  The two clients take the default
    timeout. *)
Definition test_error_scenarios (requests_Session : Session.t) : Py unit :=
  print (newline ++ "=== Testing Error Scenarios ===") ;;
  let invalid_client :=
    CODAPMetadataClient_init requests_Session
      "https://your-domain.com" "invalid-session" default_timeout in
  try_except
    (get_tool_manifest invalid_client None ;; ret tt)
    (print_module_error "Invalid session error: ") ;;
  try_except
    (let malformed_client :=
       CODAPMetadataClient_init requests_Session
         "not-a-url" "session-code" default_timeout in
     get_tool_manifest malformed_client None ;; ret tt)
    (print_module_error "Network error: ") ;;
  print "For expired session testing, use a session code that has expired".

(** The three lines [get_tool_manifest] prints about a response. *)
Definition version_lines (r : Response.t) : list string :=
  ["API Version: "
     ++ headers_get (Response.headers r) "api-version" "Not provided";
   "Tool Manifest Version: "
     ++ headers_get (Response.headers r) "tool-manifest-version"
          "Not provided";
   "Supported Versions: "
     ++ headers_get (Response.headers r) "supported-versions"
          "Not provided"].

(** ** The specification's vocabulary

    The specification names eight kinds of client error; the module has
    four exception classes.  [kind_of] reads the kind off an exception
    as the specification's dispatch table does: by class, and for the
    base class by the status code it carries. *)

Inductive ClientErrorKind : Type :=
| BadRequest
| AuthenticationFailed
| SessionExpired
| MethodNotAllowed
| VersionNotSupported
| ServerError
| UnknownHttpError
| TransportError.

Definition kind_of (e : codap_error) : ClientErrorKind :=
  match e with
  | AuthenticationError _ => AuthenticationFailed
  | SessionExpiredError _ => SessionExpired
  | VersionNotSupportedError _ _ _ => VersionNotSupported
  | CODAPMetadataError a =>
      match status_code a with
      | None => TransportError
      | Some s =>
          if s =? 400 then BadRequest
          else if s =? 405 then MethodNotAllowed
          else if s =? 500 then ServerError
          else UnknownHttpError
      end
  end.

(** The dispatch table of the specification, on the status code alone. *)
Definition expected_kind (status : Z) : ClientErrorKind :=
  if status =? 400 then BadRequest
  else if status =? 401 then AuthenticationFailed
  else if status =? 403 then SessionExpired
  else if status =? 405 then MethodNotAllowed
  else if status =? 406 then VersionNotSupported
  else if status =? 500 then ServerError
  else UnknownHttpError.

(** The specification's data model of a manifest. *)
Record ToolDescriptor : Type := Tool {
  tool_name : string;
  tool_description : string;
  tool_inputSchema : option value
}.

Record ToolManifest : Type := Manifest {
  apiVersion : string;
  tools : list ToolDescriptor
}.

(** A decoded JSON object is a given tool: it has the keys [name] and
    [description] with the tool's strings, and the key [inputSchema]
    exactly when the tool has a schema.  Other keys are free. *)
Definition is_tool (v : value) (t : ToolDescriptor) : Prop :=
  exists fields,
    v = VDict fields /\
    lookup fields "name" = Some (VStr (tool_name t)) /\
    lookup fields "description" = Some (VStr (tool_description t)) /\
    lookup fields "inputSchema" = tool_inputSchema t.

(** A decoded JSON object is a given manifest. *)
Definition is_manifest (v : value) (m : ToolManifest) : Prop :=
  exists fields items,
    v = VDict fields /\
    lookup fields "apiVersion" = Some (VStr (apiVersion m)) /\
    lookup fields "tools" = Some (VList items) /\
    Forall2 is_tool items (tools m).

(** Whether a decoded body has the shape of a manifest at all. *)
Definition tool_shaped (v : value) : bool :=
  match v with
  | VDict fields =>
      match lookup fields "name", lookup fields "description" with
      | Some (VStr _), Some (VStr _) => true
      | _, _ => false
      end
  | _ => false
  end.

Definition manifest_shaped (v : value) : bool :=
  match v with
  | VDict fields =>
      match lookup fields "apiVersion", lookup fields "tools" with
      | Some (VStr _), Some (VList items) => forallb tool_shaped items
      | _, _ => false
      end
  | _ => false
  end.

(** A field of a [VersionNegotiationResult] is populated when it is not
    [None]. *)
Definition populated (v : value) : bool :=
  match v with
  | VNone => false
  | _ => true
  end.

(** "Exactly one branch populated", in the words of the specification. *)
Definition one_branch (r : VersionNegotiationResult.t) : bool :=
  let success_fields :=
    [VersionNegotiationResult.version r;
     VersionNegotiationResult.manifest r] in
  let failure_fields :=
    [VersionNegotiationResult.error r;
     VersionNegotiationResult.requested_version r;
     VersionNegotiationResult.supported_versions r] in
  if VersionNegotiationResult.success r
  then forallb populated success_fields
       && forallb (fun v => negb (populated v)) failure_fields
  else forallb populated failure_fields
       && forallb (fun v => negb (populated v)) success_fields.

(** The request headers hold the key. *)
Definition has_header (r : Request.t) (name : string) : bool :=
  match lookup (Request.headers r) name with
  | Some _ => true
  | None => false
  end.

(** [n] slashes. *)
Fixpoint slashes (n : nat) : string :=
  match n with
  | O => EmptyString
  | S n' => String "/" (slashes n')
  end.

Fixpoint ends_with_slash (s : string) : bool :=
  match s with
  | EmptyString => false
  | String c EmptyString => Ascii.eqb c "/"
  | String _ s' => ends_with_slash s'
  end.

(** ** Sample sessions, for concrete runs *)

(** A JSON text of a value, for the [text] of a sample response. *)
Definition json_escape_char (c : ascii) : string :=
  let n := nat_of_ascii c in
  if Ascii.eqb c "\" then "\\"
  else if Ascii.eqb c double_quote
       then String "\" (String double_quote EmptyString)
  else if Nat.ltb n 32 then
    "\u00" ++ String (hex_digit (n / 16))
                (String (hex_digit (n mod 16)) EmptyString)
  else String c EmptyString.

Fixpoint json_escape (s : string) : string :=
  match s with
  | EmptyString => EmptyString
  | String c s' => json_escape_char c ++ json_escape s'
  end.

Definition json_string (s : string) : string :=
  String double_quote (json_escape s ++ String double_quote EmptyString).

Fixpoint to_json (v : value) : string :=
  match v with
  | VNone => "null"
  | VBool true => "true"
  | VBool false => "false"
  | VInt n => string_of_Z n
  | VFloat r => r
  | VStr s => json_string s
  | VList l => "[" ++ String.concat ", " (map to_json l) ++ "]"
  | VDict d =>
      "{" ++ String.concat ", "
               (map (fun '(k, x) => json_string k ++ ": " ++ to_json x) d)
          ++ "}"
  end.

(** A response whose body is a JSON text of [v]. *)
Definition json_response (status : Z) (v : value) : Response.t :=
  Response.mk status [("Content-Type", "application/json")] (to_json v)
    (Return v).

(** A response whose body is no JSON text. *)
Definition text_response (status : Z) (text : string)
    (is_request_exception : bool) : Response.t :=
  Response.mk status [("Content-Type", "text/plain")] text
    (Raise (JSONDecodeError is_request_exception "Expecting value")).

(** A session that answers every request with the same response. *)
Definition answering (r : Response.t) : Session.t :=
  Session.mk [] (fun _ => Return r).

(** A session whose every request fails in the transport. *)
Definition failing (msg : string) : Session.t :=
  Session.mk [] (fun _ => Raise (RequestException msg)).

Definition client_of (s : Session.t) : CODAPMetadataClient :=
  CODAPMetadataClient_init s "https://your-domain.com/" "your-session-code"
    default_timeout.

(** Whether an optional version is given. *)
Definition provided (api_version : option string) : bool :=
  match api_version with
  | Some _ => true
  | None => false
  end.

(** The dictionary [_handle_error_response] reads its fields from: the
    decoded body when it is a JSON object, and the substitute built from
    the raw text when the body does not decode. *)
Definition error_data (r : Response.t) (d : list (string * value)) : Prop :=
  Response.json r = Return (VDict d) \/
  exists b msg,
    Response.json r = Raise (JSONDecodeError b msg) /\
    d = [("error", VStr (str_or (Response.text r) "Unknown error"))].

(** [d.get(key, default)] as a value. *)
Definition field (d : list (string * value)) (key : string)
    (default : value) : value :=
  match lookup d key with
  | Some x => x
  | None => default
  end.

(** Bodies of the specification's examples. *)
Definition manifest_1_0_0 : value :=
  VDict [("apiVersion", VStr "1.0.0"); ("tools", VList [])].

Definition manifest_x : value :=
  VDict [("apiVersion", VStr "1.0.0");
         ("tools", VList [VDict [("name", VStr "x");
                                 ("description", VStr "the tool x")]])].

Definition body_406_null : value :=
  VDict [("error", VStr "Unsupported API version");
         ("requestedVersion", VNone);
         ("supportedVersions", VList [VStr "1.0.0"])].

(** What a 406 answer with that body makes the negotiation return. *)
Definition failure_null : VersionNegotiationResult.t :=
  VersionNegotiationResult.mk
    false VNone (VStr "Unsupported version: None")
    VNone (VList [VStr "1.0.0"]) VNone.

(** A manifest whose second tool is no tool. *)
Definition manifest_x_then_junk : value :=
  VDict [("tools",
          VList [VDict [("name", VStr "x");
                        ("description", VStr "the tool x")];
                 VInt 0])].

Definition manifest_schema : value :=
  VDict [("apiVersion", VStr "1.0.0");
         ("tools",
          VList [VDict [("name", VStr "x");
                        ("description", VStr "the tool x");
                        ("inputSchema",
                         VDict [("type", VStr "object")])]])].

Definition body_406 : value :=
  VDict [("error", VStr "Unsupported API version");
         ("requestedVersion", VStr "2.0.0");
         ("supportedVersions", VList [VStr "1.0.0"])].

(** What the data model's tools make the list and schema methods return. *)
Definition name_and_description (t : ToolDescriptor) : value :=
  VDict [("name", VStr (tool_name t));
         ("description", VStr (tool_description t))].

Definition schema_of (ts : list ToolDescriptor) (name : string) : value :=
  match find (fun t => String.eqb (tool_name t) name) ts with
  | Some t =>
      match tool_inputSchema t with
      | Some schema => schema
      | None => VNone
      end
  | None => VNone
  end.

(** * Properties *)

(** ** The monad *)

Section MonadLaws.
Context {A B : Type}.
Implicit Types (m : Py A) (f : A -> Py B) (h : exn -> option (Py A)).

Lemma result_bind_Return m f a :
  result m = Return a -> result (bind m f) = result (f a).
Proof.
  destruct m as [out r]; simpl; intros ->.
  unfold bind; destruct (f a); reflexivity.
Qed.

Lemma result_bind_Raise m f e :
  result m = Raise e -> result (bind m f) = Raise e.
Proof. destruct m as [out r]; simpl; intros ->; reflexivity. Qed.

Lemma result_try_Return m h a :
  result m = Return a -> result (try_except m h) = Return a.
Proof. destruct m as [out r]; simpl; intros ->; reflexivity. Qed.

Lemma result_try_caught m h e k :
  result m = Raise e -> h e = Some k ->
  result (try_except m h) = result k.
Proof.
  destruct m as [out r]; simpl; intros -> Hh.
  unfold try_except; rewrite Hh; destruct k; reflexivity.
Qed.

Lemma result_try_uncaught m h e :
  result m = Raise e -> h e = None ->
  result (try_except m h) = Raise e.
Proof.
  destruct m as [out r]; simpl; intros -> Hh.
  unfold try_except; rewrite Hh; reflexivity.
Qed.
End MonadLaws.

(** ** The response classifier *)

Lemma get_field d key default :
  get (VDict d) key default = ret (field d key default).
Proof. unfold get, field; destruct (lookup d key); reflexivity. Qed.

(** With such a dictionary the classifier raises an exception of the
    module, of the kind the dispatch table gives for the status code;
    outside 406 the exception carries that status code. *)
Lemma handle_error_response_kind self r d :
  error_data r d ->
  exists e,
    result (_handle_error_response self r) = Raise (Codap e) /\
    kind_of e = expected_kind (Response.status_code r) /\
    (Response.status_code r <> 406 ->
     status_code (attrs_of e) = Some (Response.status_code r)).
Proof.
  intros Hd. unfold _handle_error_response, expected_kind.
  assert (Hdata :
    try_except (lift (Response.json r))
      (fun e =>
         if is_ValueError e then
           Some (ret (VDict [("error",
                              VStr (str_or (Response.text r)
                                           "Unknown error"))]))
         else None) = ret (VDict d)).
  { destruct Hd as [-> | (b & msg & -> & ->)]; reflexivity. }
  rewrite Hdata; clear Hdata. cbn [bind ret].
  rewrite !get_field. cbn [bind ret].
  set (s := Response.status_code r).
  destruct (s =? 400) eqn:E400.
  { eexists; split; [reflexivity|]; cbn; rewrite E400; auto. }
  destruct (s =? 401) eqn:E401.
  { eexists; split; [reflexivity|]; cbn; auto. }
  destruct (s =? 403) eqn:E403.
  { eexists; split; [reflexivity|]; cbn; auto. }
  destruct (s =? 405) eqn:E405.
  { eexists; split; [reflexivity|]; cbn; rewrite E400, E405; auto. }
  destruct (s =? 406) eqn:E406.
  { cbn [bind ret]. eexists; split; [reflexivity|]; cbn.
    split; [reflexivity|]. apply Z.eqb_eq in E406; congruence. }
  destruct (s =? 500) eqn:E500.
  { eexists; split; [reflexivity|]; cbn; rewrite E400, E405, E500; auto. }
  eexists; split; [reflexivity|]; cbn; rewrite E400, E405, E500; auto.
Qed.

(** At 406 the two version fields come from the dictionary, with the
    defaults ["unknown"] and the empty list. *)
Lemma version_not_supported_fields self r d :
  error_data r d ->
  Response.status_code r = 406 ->
  let requested := field d "requestedVersion" (VStr "unknown") in
  let supported := field d "supportedVersions" (VList []) in
  result (_handle_error_response self r) =
  Raise (Codap (VersionNotSupportedError
                  (Attrs ("Unsupported version: " ++ py_str requested)
                         (Some "VERSION_NOT_SUPPORTED") None)
                  requested supported)).
Proof.
  intros Hd Hs. unfold _handle_error_response.
  assert (Hdata :
    try_except (lift (Response.json r))
      (fun e =>
         if is_ValueError e then
           Some (ret (VDict [("error",
                              VStr (str_or (Response.text r)
                                           "Unknown error"))]))
         else None) = ret (VDict d)).
  { destruct Hd as [-> | (b & msg & -> & ->)]; reflexivity. }
  rewrite Hdata, Hs; clear Hdata. cbn [bind ret].
  rewrite !get_field. reflexivity.
Qed.

(** The two bodies the specification tests at 406. *)
Example version_not_supported_example self headers text :
  result (_handle_error_response self
            (Response.mk 406 headers text
               (Return (VDict [("requestedVersion", VStr "2.0.0");
                               ("supportedVersions",
                                VList [VStr "1.0.0"])])))) =
  Raise (Codap (VersionNotSupportedError
                  (Attrs "Unsupported version: 2.0.0"
                         (Some "VERSION_NOT_SUPPORTED") None)
                  (VStr "2.0.0") (VList [VStr "1.0.0"]))).
Proof. reflexivity. Qed.

Example version_not_supported_undecodable self headers text b msg :
  result (_handle_error_response self
            (Response.mk 406 headers text
               (Raise (JSONDecodeError b msg)))) =
  Raise (Codap (VersionNotSupportedError
                  (Attrs "Unsupported version: unknown"
                         (Some "VERSION_NOT_SUPPORTED") None)
                  (VStr "unknown") (VList []))).
Proof.
  apply (version_not_supported_fields self _
           [("error", VStr (str_or text "Unknown error"))]).
  - right; exists b, msg; split; reflexivity.
  - reflexivity.
Qed.

(** A decoded body that is not a dictionary has no [get]: the classifier
    ends in [AttributeError], whatever the status code. *)
Lemma handle_error_response_not_dict self r v :
  Response.json r = Return v ->
  (forall d, v <> VDict d) ->
  result (_handle_error_response self r) = Raise AttributeError.
Proof.
  intros Hj Hv. unfold _handle_error_response. rewrite Hj.
  destruct v; try reflexivity. now destruct (Hv items).
Qed.

(** ** [get_tool_manifest] *)

Lemma result_try_ext {A} (m m' : Py A) h :
  result m = result m' ->
  result (try_except m h) = result (try_except m' h).
Proof.
  destruct m as [o r], m' as [o' r']; simpl; intros ->.
  destruct r'; simpl; [reflexivity|].
  destruct (h e) as [[]|]; reflexivity.
Qed.

(** Once the session has answered, the result is that of the branch on
    the status code; the three [print]s only add to the output. *)
Lemma get_tool_manifest_answered self api_version r :
  Session.get (session self) (build_request self api_version) = Return r ->
  result (get_tool_manifest self api_version) =
  result (try_except
            (if Response.status_code r =? 200
             then lift (Response.json r)
             else _handle_error_response self r ;; ret VNone)
            on_RequestException).
Proof.
  intros Hget. unfold get_tool_manifest. apply result_try_ext.
  rewrite Hget.
  rewrite (result_bind_Return _ _ r) by reflexivity.
  now rewrite !(result_bind_Return _ _ tt) by reflexivity.
Qed.

Lemma get_tool_manifest_success self api_version r v :
  Session.get (session self) (build_request self api_version) = Return r ->
  Response.status_code r = 200 ->
  Response.json r = Return v ->
  result (get_tool_manifest self api_version) = Return v.
Proof.
  intros Hget Hs Hj.
  rewrite (get_tool_manifest_answered _ _ _ Hget), Hs, Hj. reflexivity.
Qed.

Lemma get_tool_manifest_undecodable self api_version r b msg :
  Session.get (session self) (build_request self api_version) = Return r ->
  Response.status_code r = 200 ->
  Response.json r = Raise (JSONDecodeError b msg) ->
  result (get_tool_manifest self api_version) =
  Raise (if b then Codap (CODAPMetadataError
                            (Attrs ("Network error: " ++ msg) None None))
         else JSONDecodeError false msg).
Proof.
  intros Hget Hs Hj.
  rewrite (get_tool_manifest_answered _ _ _ Hget), Hs, Hj.
  destruct b; reflexivity.
Qed.

(** On any other status the exception of the classifier passes through:
    an exception of the module is no [RequestException]. *)
Lemma get_tool_manifest_error self api_version r e :
  Session.get (session self) (build_request self api_version) = Return r ->
  Response.status_code r <> 200 ->
  result (_handle_error_response self r) = Raise e ->
  as_RequestException e = None ->
  result (get_tool_manifest self api_version) = Raise e.
Proof.
  intros Hget Hs He Hn.
  rewrite (get_tool_manifest_answered _ _ _ Hget).
  apply Z.eqb_neq in Hs; rewrite Hs.
  apply result_try_uncaught with (e := e).
  - now apply result_bind_Raise.
  - unfold on_RequestException; now rewrite Hn.
Qed.

Lemma get_tool_manifest_transport self api_version msg :
  Session.get (session self) (build_request self api_version) =
    Raise (RequestException msg) ->
  result (get_tool_manifest self api_version) =
  Raise (Codap (CODAPMetadataError
                  (Attrs ("Network error: " ++ msg) None None))).
Proof.
  intros Hget. unfold get_tool_manifest. rewrite Hget. reflexivity.
Qed.

(** Only 200 returns: with a body the classifier can read, every other
    status code raises the exception of the dispatch table. *)
Lemma only_200_is_success self api_version r d :
  Session.get (session self) (build_request self api_version) = Return r ->
  Response.status_code r <> 200 ->
  error_data r d ->
  exists e,
    result (get_tool_manifest self api_version) = Raise (Codap e) /\
    kind_of e = expected_kind (Response.status_code r) /\
    (Response.status_code r <> 406 ->
     status_code (attrs_of e) = Some (Response.status_code r)).
Proof.
  intros Hget Hs Hd.
  destruct (handle_error_response_kind self r d Hd) as (e & He & Hk & Hc).
  exists e; repeat split; auto.
  eapply get_tool_manifest_error; eauto.
Qed.

(** ** Claims on the classifier *)

(** C1. The classifier is meant to map every status code to its kind of
    client error and never to fail on a malformed error body.  It does
    fail: when the body decodes to anything but a JSON object ([null],
    a number, a string, a list), [error_data.get] raises
    [AttributeError], at every status code, and no exception of the
    module is produced. *)
Theorem handle_error_response_non_dict_body self status headers text v :
  match v with
  | VDict _ => True
  | _ =>
      result (_handle_error_response self
                (Response.mk status headers text (Return v))) =
      Raise AttributeError
  end.
Proof. destruct v; trivial; reflexivity. Qed.

(** C2. At status 406 the classifier is meant to raise
    [VersionNotSupportedError] with the body's fields or their defaults.
    For a body that decodes to something other than a JSON object it
    raises [AttributeError] instead of defaulting. *)
Theorem version_not_supported_non_dict_body self headers text v :
  match v with
  | VDict _ => True
  | _ =>
      result (_handle_error_response self
                (Response.mk 406 headers text (Return v))) =
      Raise AttributeError
  end.
Proof. destruct v; trivial; reflexivity. Qed.

(** C5. Every kind but the transport error is meant to carry the HTTP
    status code.  The exception raised at 406 does not: whatever the
    body's fields, its [status_code] is [None], while its code is
    [VERSION_NOT_SUPPORTED] and both version fields are there. *)
Theorem version_not_supported_has_no_status_code self headers text d :
  exists a requested supported,
    result (_handle_error_response self
              (Response.mk 406 headers text (Return (VDict d)))) =
    Raise (Codap (VersionNotSupportedError a requested supported)) /\
    code a = Some "VERSION_NOT_SUPPORTED" /\
    status_code a = None.
Proof.
  do 3 eexists. split.
  - apply (version_not_supported_fields self _ d); [left|]; reflexivity.
  - split; reflexivity.
Qed.

(** C10. A 2xx status other than 200 is meant to raise the unknown-HTTP
    error with that status.  With status 201 and a body that decodes to
    a list, [get_tool_manifest] raises [AttributeError] instead. *)
Theorem created_with_list_body api_version headers text items :
  result (get_tool_manifest
            (client_of (answering
               (Response.mk 201 headers text (Return (VList items)))))
            api_version) =
  Raise AttributeError.
Proof.
  eapply get_tool_manifest_error; try reflexivity.
  discriminate.
Qed.

(** ** Claims on [get_tool_manifest] *)

(** C8. When the session's [get] raises a [RequestException] (a network
    error or a timeout), [get_tool_manifest] raises the base exception
    of the module with the message [Network error: ...], no code and no
    status code: the transport kind. *)
Theorem transport_failure_surfaces self api_version msg :
  Session.get (session self) (build_request self api_version) =
    Raise (RequestException msg) ->
  exists e,
    result (get_tool_manifest self api_version) = Raise (Codap e) /\
    kind_of e = TransportError /\
    message (attrs_of e) = "Network error: " ++ msg /\
    code (attrs_of e) = None /\
    status_code (attrs_of e) = None.
Proof.
  intros Hget. eexists. split.
  - exact (get_tool_manifest_transport _ _ _ Hget).
  - repeat split.
Qed.

Lemma transport_failure_surfaces_witness :
  exists e,
    result (get_tool_manifest (client_of (failing "timed out")) None) =
      Raise (Codap e) /\
    kind_of e = TransportError /\
    message (attrs_of e) = "Network error: timed out" /\
    code (attrs_of e) = None /\
    status_code (attrs_of e) = None.
Proof.
  apply (transport_failure_surfaces
           (client_of (failing "timed out")) None "timed out").
  reflexivity.
Defined.

(** ** Claims on the facade *)

(** C3. [test_version_negotiation] calls [get_tool_manifest] with the
    requested version.  When that returns a manifest, the result is a
    success holding the manifest and its [apiVersion]; when it raises
    [VersionNotSupportedError], the result is a failure holding the
    error's message, requested version and supported versions; an
    exception of the module of any other kind is raised on, unchanged. *)
Theorem test_version_negotiation_outcomes self requested :
  (forall d version,
     result (get_tool_manifest self (Some requested)) = Return (VDict d) ->
     lookup d "apiVersion" = Some version ->
     result (test_version_negotiation self requested) =
     Return (VersionNegotiationResult.mk
               true version VNone VNone VNone (VDict d))) /\
  (forall a requested_version supported_versions,
     result (get_tool_manifest self (Some requested)) =
       Raise (Codap (VersionNotSupportedError
                       a requested_version supported_versions)) ->
     result (test_version_negotiation self requested) =
     Return (VersionNegotiationResult.mk
               false VNone (VStr (message a))
               requested_version supported_versions VNone)) /\
  (forall e,
     result (get_tool_manifest self (Some requested)) = Raise (Codap e) ->
     kind_of e <> VersionNotSupported ->
     result (test_version_negotiation self requested) = Raise (Codap e)).
Proof.
  unfold test_version_negotiation. repeat split.
  - intros d version Hm Hv. apply result_try_Return.
    rewrite (result_bind_Return _ _ _ Hm).
    unfold subscript; rewrite Hv. reflexivity.
  - intros a rv sv Hm.
    eapply eq_trans;
      [eapply result_try_caught;
         [apply result_bind_Raise; eassumption | reflexivity]
      | reflexivity].
  - intros e Hm Hk. apply result_try_uncaught.
    + now apply result_bind_Raise.
    + destruct e; try reflexivity. now contradiction Hk.
Qed.

Lemma test_version_negotiation_outcomes_witness :
  result (test_version_negotiation
            (client_of (answering
               (json_response 200 manifest_1_0_0))) "1.0.0") =
    Return (VersionNegotiationResult.mk
              true (VStr "1.0.0") VNone VNone VNone manifest_1_0_0) /\
  result (test_version_negotiation
            (client_of (answering
               (json_response 406 body_406))) "2.0.0") =
    Return (VersionNegotiationResult.mk
              false VNone (VStr "Unsupported version: 2.0.0")
              (VStr "2.0.0") (VList [VStr "1.0.0"]) VNone) /\
  result (test_version_negotiation
            (client_of (answering
               (json_response 403 (VDict [("error", VStr "expired")]))))
            "1.0.0") =
    Raise (Codap (SessionExpiredError
                    (Attrs "Forbidden: expired" (Some "SESSION_EXPIRED")
                           (Some 403)))).
Proof.
  split; [|split].
  - apply (proj1 (test_version_negotiation_outcomes _ "1.0.0"));
      reflexivity.
  - apply (proj1 (proj2 (test_version_negotiation_outcomes _ "2.0.0"))
             (Attrs "Unsupported version: 2.0.0"
                    (Some "VERSION_NOT_SUPPORTED") None)).
    reflexivity.
  - apply (proj2 (proj2 (test_version_negotiation_outcomes _ "1.0.0")));
      [reflexivity | discriminate].
Defined.

(** The three loops on a list of tools of the data model. *)
Lemma any_name_is_tools items ts name :
  Forall2 is_tool items ts ->
  any_name_is items name =
  ret (existsb (fun t => String.eqb (tool_name t) name) ts).
Proof.
  induction 1 as [|v t items ts (f & -> & Hn & _) _ IH]; [reflexivity|].
  cbn [any_name_is subscript existsb]. rewrite Hn. cbn.
  destruct (String.eqb (tool_name t) name); [reflexivity|].
  rewrite IH. reflexivity.
Qed.

Lemma name_description_tools items ts :
  Forall2 is_tool items ts ->
  name_description items = ret (map name_and_description ts).
Proof.
  induction 1 as [|v t items ts (f & -> & Hn & Hd & _) _ IH];
    [reflexivity|].
  cbn [name_description subscript]. rewrite Hn, Hd, IH. reflexivity.
Qed.

Lemma find_schema_tools items ts name :
  Forall2 is_tool items ts ->
  find_schema items name = ret (schema_of ts name).
Proof.
  unfold schema_of.
  induction 1 as [|v t items ts (f & -> & Hn & _ & Hs) _ IH];
    [reflexivity|].
  cbn [find_schema subscript find]. rewrite Hn. cbn.
  destruct (String.eqb (tool_name t) name).
  - rewrite Hs. destruct (tool_inputSchema t); reflexivity.
  - rewrite IH. reflexivity.
Qed.

(** C4. When [get_tool_manifest] raises an exception of the module, the
    three convenience methods return their defaults: [False], [None]
    and the empty list.  When it returns a manifest of the data model,
    [is_tool_available] returns [True] exactly when a tool of the
    manifest has the given name, and [list_available_tools] returns the
    name and description of each tool, in the manifest's order. *)
Theorem convenience_methods self name :
  (forall e,
     result (get_tool_manifest self None) = Raise (Codap e) ->
     result (is_tool_available self name) = Return false /\
     result (get_tool_schema self name) = Return VNone /\
     result (list_available_tools self) = Return []) /\
  (forall v m,
     result (get_tool_manifest self None) = Return v ->
     is_manifest v m ->
     (exists b,
        result (is_tool_available self name) = Return b /\
        (b = true <-> exists t, In t (tools m) /\ tool_name t = name)) /\
     result (list_available_tools self) =
       Return (map name_and_description (tools m))).
Proof.
  split.
  - intros e He.
    unfold is_tool_available, get_tool_schema, list_available_tools.
    repeat split;
      (eapply eq_trans;
       [eapply result_try_caught;
          [apply result_bind_Raise; eassumption | reflexivity]
       | reflexivity]).
  - intros v m Hv (fields & items & -> & _ & Htools & Hitems).
    unfold is_tool_available, list_available_tools. split.
    + exists (existsb (fun t => String.eqb (tool_name t) name) (tools m)).
      split.
      * apply result_try_Return.
        rewrite (result_bind_Return _ _ _ Hv).
        unfold subscript; rewrite Htools.
        rewrite (result_bind_Return _ _ (VList items)) by reflexivity.
        rewrite (result_bind_Return _ _ items) by reflexivity.
        now rewrite (any_name_is_tools _ _ _ Hitems).
      * rewrite existsb_exists. split.
        -- intros (t & Hin & Heq). exists t. split; [assumption|].
           now apply String.eqb_eq.
        -- intros (t & Hin & Heq). exists t. split; [assumption|].
           now apply String.eqb_eq.
    + apply result_try_Return.
      rewrite (result_bind_Return _ _ _ Hv).
      unfold subscript; rewrite Htools.
      rewrite (result_bind_Return _ _ (VList items)) by reflexivity.
      rewrite (result_bind_Return _ _ items) by reflexivity.
      now rewrite (name_description_tools _ _ Hitems).
Qed.

Lemma convenience_methods_witness :
  (result (is_tool_available
             (client_of (answering (json_response 403 (VDict [])))) "x") =
     Return false /\
   result (get_tool_schema
             (client_of (answering (json_response 403 (VDict [])))) "x") =
     Return VNone /\
   result (list_available_tools
             (client_of (answering (json_response 403 (VDict []))))) =
     Return []) /\
  result (list_available_tools
            (client_of (answering (json_response 200 manifest_x)))) =
    Return [VDict [("name", VStr "x");
                   ("description", VStr "the tool x")]].
Proof.
  split.
  - apply (proj1 (convenience_methods _ "x")
             (SessionExpiredError
                (Attrs "Forbidden: HTTP 403 error" (Some "SESSION_EXPIRED")
                       (Some 403)))).
    reflexivity.
  - apply (proj2 (convenience_methods
                    (client_of (answering (json_response 200 manifest_x)))
                    "x")
             manifest_x
             (Manifest "1.0.0" [Tool "x" "the tool x" None])).
    + reflexivity.
    + exists [("apiVersion", VStr "1.0.0");
              ("tools", VList [VDict [("name", VStr "x");
                                      ("description", VStr "the tool x")]])],
             [VDict [("name", VStr "x");
                     ("description", VStr "the tool x")]].
      repeat split.
      constructor; [|constructor].
      eexists; repeat split.
Defined.

(** The schema method on a manifest of the data model: the schema of the
    first tool with the name, [None] when that tool has none or no tool
    has the name. *)
Lemma get_tool_schema_success self name v m :
  result (get_tool_manifest self None) = Return v ->
  is_manifest v m ->
  result (get_tool_schema self name) = Return (schema_of (tools m) name).
Proof.
  intros Hv (fields & items & -> & _ & Htools & Hitems).
  unfold get_tool_schema. apply result_try_Return.
  rewrite (result_bind_Return _ _ _ Hv).
  unfold subscript; rewrite Htools.
  rewrite (result_bind_Return _ _ (VList items)) by reflexivity.
  rewrite (result_bind_Return _ _ items) by reflexivity.
  now rewrite (find_schema_tools _ _ _ Hitems).
Qed.

(** C9, as the specification states it, fails: the failure fields are
    whatever the 406 body holds, and a body whose [requestedVersion] is
    [null] gives a failure result whose requested version is [None]. *)
Lemma null_requested_version_outcome :
  result (test_version_negotiation
            (client_of (answering (json_response 406 body_406_null)))
            "2.0.0") = Return failure_null /\
  VersionNegotiationResult.success failure_null = false /\
  populated (VersionNegotiationResult.requested_version failure_null)
    = false /\
  one_branch failure_null = false.
Proof. repeat split. Qed.

(** C9, amended.  Every result of [test_version_negotiation] is of one
    of two forms, never a mix.  A success holds the manifest that
    [get_tool_manifest] returned, which is not [None], and that
    manifest's [apiVersion], while error, requested version and
    supported versions are [None].  A failure holds the message of the
    [VersionNotSupportedError] that was raised and that error's
    requested and supported versions, while version and manifest are
    [None]. *)
Theorem negotiation_result_branches self requested r :
  result (test_version_negotiation self requested) = Return r ->
  (VersionNegotiationResult.success r = true /\
   result (get_tool_manifest self (Some requested)) =
     Return (VersionNegotiationResult.manifest r) /\
   populated (VersionNegotiationResult.manifest r) = true /\
   result (subscript (VersionNegotiationResult.manifest r) "apiVersion") =
     Return (VersionNegotiationResult.version r) /\
   VersionNegotiationResult.error r = VNone /\
   VersionNegotiationResult.requested_version r = VNone /\
   VersionNegotiationResult.supported_versions r = VNone)
  \/
  (VersionNegotiationResult.success r = false /\
   (exists a,
      result (get_tool_manifest self (Some requested)) =
        Raise (Codap (VersionNotSupportedError a
                 (VersionNegotiationResult.requested_version r)
                 (VersionNegotiationResult.supported_versions r))) /\
      VersionNegotiationResult.error r = VStr (message a)) /\
   VersionNegotiationResult.version r = VNone /\
   VersionNegotiationResult.manifest r = VNone).
Proof.
  unfold test_version_negotiation.
  destruct (get_tool_manifest self (Some requested)) as [out [v|e]] eqn:E.
  - destruct v as [| | | | | |d];
      try (cbn; discriminate).
    cbn. destruct (lookup d "apiVersion") as [x|] eqn:Hx;
      cbn; [|discriminate].
    intros [= <-]. left. cbn. rewrite Hx. repeat split.
  - destruct e as [[a|a|a|a rv sv]| | | | |];
      try (cbn; discriminate).
    cbn. intros [= <-]. right. cbn. repeat split.
    exists a. split; reflexivity.
Qed.

Lemma negotiation_result_branches_witness :
  result (test_version_negotiation
            (client_of (answering (json_response 406 body_406_null)))
            "2.0.0") = Return failure_null /\
  VersionNegotiationResult.version failure_null = VNone /\
  VersionNegotiationResult.manifest failure_null = VNone.
Proof.
  split; [reflexivity|].
  destruct (negotiation_result_branches
              (client_of (answering (json_response 406 body_406_null)))
              "2.0.0" failure_null eq_refl)
    as [(Ht & _) | (_ & _ & Hv & Hm)].
  - cbn in Ht; discriminate.
  - split; assumption.
Defined.

(** ** Claims on the body of a 200 answer and on the request *)

(** C6, as the specification states it, fails: no exception of the
    module stands for a body that is not a manifest.  A 200 body that
    decodes is returned whatever its shape; here the empty object, which
    has neither [apiVersion] nor [tools]. *)
Lemma non_manifest_body_returned :
  manifest_shaped (VDict []) = false /\
  result (get_tool_manifest
            (client_of (answering (json_response 200 (VDict [])))) None) =
    Return (VDict []).
Proof. split; reflexivity. Qed.

(** C6, amended.  A 200 answer whose body does not decode as JSON never
    makes [get_tool_manifest] return: it raises the decoder's own error
    when that error is not a [RequestException], and otherwise the base
    exception of the module with the message [Network error: ...], no
    code and no status code.  A 200 body that decodes is returned as it
    is. *)
Theorem undecodable_200_body self api_version r :
  Session.get (session self) (build_request self api_version) = Return r ->
  Response.status_code r = 200 ->
  (forall b msg,
     Response.json r = Raise (JSONDecodeError b msg) ->
     result (get_tool_manifest self api_version) =
     Raise (if b
            then Codap (CODAPMetadataError
                          (Attrs ("Network error: " ++ msg) None None))
            else JSONDecodeError false msg)) /\
  (forall v,
     Response.json r = Return v ->
     result (get_tool_manifest self api_version) = Return v).
Proof.
  intros Hget Hs. split.
  - intros b msg Hj. now apply get_tool_manifest_undecodable with (r := r).
  - intros v Hj. now apply get_tool_manifest_success with (r := r).
Qed.

Lemma undecodable_200_body_witness :
  result (get_tool_manifest
            (client_of (answering (text_response 200 "<html>" false)))
            None) =
    Raise (JSONDecodeError false "Expecting value") /\
  result (get_tool_manifest
            (client_of (answering (text_response 200 "<html>" true)))
            None) =
    Raise (Codap (CODAPMetadataError
                    (Attrs "Network error: Expecting value" None None))).
Proof.
  split.
  - apply (proj1 (undecodable_200_body
                    (client_of (answering
                       (text_response 200 "<html>" false)))
                    None _ eq_refl eq_refl) false "Expecting value").
    reflexivity.
  - apply (proj1 (undecodable_200_body
                    (client_of (answering
                       (text_response 200 "<html>" true)))
                    None _ eq_refl eq_refl) true "Expecting value").
    reflexivity.
Defined.

(** [rstrip('/')] removes a run of slashes from the end, and all of it. *)
Lemma rstrip_slash_suffix s :
  exists n, s = rstrip_slash s ++ slashes n.
Proof.
  induction s as [|c s [n IH]]; [now exists O|].
  cbn [rstrip_slash]. destruct (rstrip_slash s) as [|a t] eqn:E.
  - cbn in IH. destruct (Ascii.eqb c "/") eqn:Ec.
    + apply Ascii.eqb_eq in Ec; subst c. exists (S n). now rewrite IH at 1.
    + exists n. cbn. now rewrite IH at 1.
  - exists n. cbn. now rewrite IH at 1.
Qed.

Lemma rstrip_slash_trimmed s :
  ends_with_slash (rstrip_slash s) = false.
Proof.
  induction s as [|c s IH]; [reflexivity|].
  cbn [rstrip_slash]. destruct (rstrip_slash s) as [|a t] eqn:E.
  - destruct (Ascii.eqb c "/") eqn:Ec; [reflexivity|]. cbn. exact Ec.
  - exact IH.
Qed.

(** C7, as the specification states it, fails for a version that is
    given but empty: [if api_version:] is false for the empty string, so
    no [Accept-Version] header is set. *)
Lemma empty_version_sends_no_header :
  provided (Some "") = true /\
  has_header (build_request (client_of (failing "unreachable")) (Some ""))
             "Accept-Version" = false.
Proof. split; reflexivity. Qed.

(** C7, amended.  For every base URL, session code and optional version,
    the request of a client built from them has the URL made of the base
    URL without its trailing slashes, [/api/sessions/], the session code
    and [/metadata]; its headers hold [Accept-Version] exactly when a
    version is given and is not the empty string, and the value is that
    version. *)
Theorem build_request_spec fresh base code_ seconds api_version :
  let self := CODAPMetadataClient_init fresh base code_ seconds in
  let request := build_request self api_version in
  Request.url request =
    rstrip_slash base ++ "/api/sessions/" ++ code_ ++ "/metadata" /\
  (exists n, base = rstrip_slash base ++ slashes n) /\
  ends_with_slash (rstrip_slash base) = false /\
  (forall v,
     lookup (Request.headers request) "Accept-Version" = Some v <->
     api_version = Some v /\ v <> "") /\
  (has_header request "Accept-Version" = true <->
   exists v, api_version = Some v /\ v <> "").
Proof.
  cbn zeta. split; [reflexivity|].
  split; [apply rstrip_slash_suffix|].
  split; [apply rstrip_slash_trimmed|].
  unfold has_header, build_request. cbn [Request.headers].
  destruct api_version as [[|c s]|]; cbn;
    (split; [intros v|]); split; intros H.
  - discriminate H.
  - destruct H as [[= <-] H]. now contradiction H.
  - discriminate H.
  - destruct H as (v & [= <-] & H). now contradiction H.
  - injection H as <-. split; [reflexivity | discriminate].
  - apply H.
  - eexists; split; [reflexivity | discriminate].
  - reflexivity.
  - discriminate H.
  - destruct H as [H _]. discriminate H.
  - discriminate H.
  - destruct H as (v & H & _). discriminate H.
Qed.

Example accept_version_1_2_0 :
  Request.headers (build_request (client_of (failing "unreachable"))
                     (Some "1.2.0")) = [("Accept-Version", "1.2.0")] /\
  Request.headers (build_request (client_of (failing "unreachable")) None)
    = [].
Proof. split; reflexivity. Qed.


(** * Further properties of the module *)

(** ** Output of the monad *)

Lemma stdout_bind {A B} (m : Py A) (f : A -> Py B) :
  stdout (bind m f) =
  (stdout m ++ match result m with
               | Return a => stdout (f a)
               | Raise _ => []
               end)%list.
Proof.
  destruct m as [out [a|e]]; cbn.
  - destruct (f a); reflexivity.
  - now rewrite app_nil_r.
Qed.

Lemma stdout_try_except {A} (m : Py A) h :
  stdout (try_except m h) =
  (stdout m ++ match result m with
               | Return _ => []
               | Raise e => match h e with
                            | Some k => stdout k
                            | None => []
                            end
               end)%list.
Proof.
  destruct m as [out [a|e]]; cbn.
  - now rewrite app_nil_r.
  - destruct (h e) as [[out' r]|]; cbn; [reflexivity|].
    now rewrite app_nil_r.
Qed.

Lemma result_try_except {A} (m : Py A) h :
  result (try_except m h) =
  match result m with
  | Return a => Return a
  | Raise e => match h e with
               | Some k => result k
               | None => Raise e
               end
  end.
Proof.
  destruct m as [out [a|e]]; cbn; [reflexivity|].
  destruct (h e) as [[out' r]|]; reflexivity.
Qed.

Lemma result_bind {A B} (m : Py A) (f : A -> Py B) :
  result (bind m f) =
  match result m with
  | Return a => result (f a)
  | Raise e => Raise e
  end.
Proof.
  destruct m as [out [a|e]]; cbn; [|reflexivity].
  destruct (f a); reflexivity.
Qed.

Lemma stdout_print_then {A} line (k : Py A) :
  stdout (print line ;; k) = line :: stdout k.
Proof. destruct k; reflexivity. Qed.

Lemma result_print_then {A} line (k : Py A) :
  result (print line ;; k) = result k.
Proof. destruct k; reflexivity. Qed.

(** ** The classifier never returns and prints nothing *)

Lemma handle_error_response_raises self r :
  stdout (_handle_error_response self r) = [] /\
  exists e, result (_handle_error_response self r) = Raise e.
Proof.
  unfold _handle_error_response.
  destruct (Response.json r) as [v|e] eqn:Hj.
  - destruct v as [| | | | | |d];
      try (split; [reflexivity | eexists; reflexivity]).
    cbn [lift try_except bind ret]. rewrite !get_field. cbn [bind ret].
    repeat match goal with
           | |- context [if ?c then _ else _] =>
               destruct c; [split; [reflexivity | eexists; reflexivity]|]
           end.
    split; [reflexivity | eexists; reflexivity].
  - destruct e as [c|m|b m|k| |];
      try (split; [reflexivity | eexists; reflexivity]).
    cbn [lift try_except is_ValueError bind ret app].
    rewrite !get_field. cbn [bind ret].
    repeat match goal with
           | |- context [if ?c then _ else _] =>
               destruct c; [split; [reflexivity | eexists; reflexivity]|]
           end.
    split; [reflexivity | eexists; reflexivity].
Qed.

(** ** [get_tool_manifest]: what is raised and what is printed *)

(** Whatever the body, a status other than 200 never returns: the
    method raises. *)
Theorem get_tool_manifest_non_200_raises self api_version r :
  Session.get (session self) (build_request self api_version) = Return r ->
  Response.status_code r <> 200 ->
  exists e, result (get_tool_manifest self api_version) = Raise e.
Proof.
  intros Hget Hs.
  rewrite (get_tool_manifest_answered _ _ _ Hget).
  apply Z.eqb_neq in Hs; rewrite Hs.
  destruct (handle_error_response_raises self r) as (_ & e & He).
  rewrite result_try_except, result_bind, He.
  destruct (on_RequestException e) as [k|] eqn:Hk; [|now exists e].
  unfold on_RequestException in Hk.
  destruct (as_RequestException e); [|discriminate].
  injection Hk as <-. eexists; reflexivity.
Qed.

Lemma get_tool_manifest_non_200_raises_witness :
  exists e,
    result (get_tool_manifest
              (client_of (answering (text_response 204 "" true))) None) =
    Raise e.
Proof.
  apply (get_tool_manifest_non_200_raises
           (client_of (answering (text_response 204 "" true))) None
           (text_response 204 "" true)).
  - reflexivity.
  - discriminate.
Defined.

(** For an answered request the method prints the three version lines
    of the response and nothing else, at every status code and for
    every body; when the session raises, nothing is printed. *)
Theorem get_tool_manifest_stdout self api_version :
  (forall r,
     Session.get (session self) (build_request self api_version) =
       Return r ->
     stdout (get_tool_manifest self api_version) = version_lines r) /\
  (forall e,
     Session.get (session self) (build_request self api_version) =
       Raise e ->
     stdout (get_tool_manifest self api_version) = []).
Proof.
  split.
  - intros r Hget. unfold get_tool_manifest. rewrite Hget.
    set (inner := if Response.status_code r =? 200
                  then lift (Response.json r)
                  else _handle_error_response self r ;; ret VNone).
    assert (Hin : stdout inner = []).
    { unfold inner. destruct (Response.status_code r =? 200);
        [reflexivity|].
      rewrite stdout_bind.
      rewrite (proj1 (handle_error_response_raises self r)).
      now destruct (result (_handle_error_response self r)). }
    rewrite stdout_try_except, stdout_bind, result_bind.
    cbn [lift stdout result fst snd app].
    rewrite !stdout_print_then, !result_print_then.
    fold inner. rewrite Hin. unfold version_lines.
    destruct (result inner) as [a|e]; [reflexivity|].
    unfold on_RequestException.
    destruct (as_RequestException e); reflexivity.
  - intros e Hget. unfold get_tool_manifest. rewrite Hget.
    cbn. unfold on_RequestException.
    destruct (as_RequestException e); reflexivity.
Qed.

Lemma get_tool_manifest_stdout_witness :
  stdout (get_tool_manifest
            (client_of (answering
               (Response.mk 403 [("API-Version", "1.0.0")] "" 
                  (Raise (JSONDecodeError true "Expecting value")))))
            None) =
    ["API Version: 1.0.0";
     "Tool Manifest Version: Not provided";
     "Supported Versions: Not provided"] /\
  stdout (get_tool_manifest (client_of (failing "timed out")) None) = [].
Proof.
  split.
  - apply (proj1 (get_tool_manifest_stdout _ None)
             (Response.mk 403 [("API-Version", "1.0.0")] ""
                (Raise (JSONDecodeError true "Expecting value")))).
    reflexivity.
  - apply (proj2 (get_tool_manifest_stdout _ None)
             (RequestException "timed out")).
    reflexivity.
Defined.

(** ** The classifier: codes and what it reads of the body *)

(** The [if] chain of the classifier once the body's dictionary is
    known. *)
Lemma handle_error_response_data self r d :
  error_data r d ->
  _handle_error_response self r =
  _handle_error_response self
    (Response.mk (Response.status_code r) [] "" (Return (VDict d))).
Proof.
  intros [Hj | (b & msg & Hj & ->)];
    unfold _handle_error_response; rewrite Hj; reflexivity.
Qed.

(** The machine code of the raised exception tells the status code:
    [AUTHENTICATION_FAILED] exactly at 401, [SESSION_EXPIRED] exactly at
    403, [VERSION_NOT_SUPPORTED] exactly at 406, and no code at every
    other status. *)
Theorem error_code_by_status self r d e :
  error_data r d ->
  result (_handle_error_response self r) = Raise (Codap e) ->
  (code (attrs_of e) = Some "AUTHENTICATION_FAILED" <->
   Response.status_code r = 401) /\
  (code (attrs_of e) = Some "SESSION_EXPIRED" <->
   Response.status_code r = 403) /\
  (code (attrs_of e) = Some "VERSION_NOT_SUPPORTED" <->
   Response.status_code r = 406) /\
  (code (attrs_of e) = None <->
   Response.status_code r <> 401 /\ Response.status_code r <> 403 /\
   Response.status_code r <> 406).
Proof.
  intros Hd. rewrite (handle_error_response_data self r d Hd).
  unfold _handle_error_response.
  cbn [Response.json Response.status_code lift try_except bind ret].
  rewrite !get_field. cbn [bind ret].
  set (s := Response.status_code r).
  destruct (s =? 400) eqn:E400; [|destruct (s =? 401) eqn:E401;
    [|destruct (s =? 403) eqn:E403; [|destruct (s =? 405) eqn:E405;
    [|destruct (s =? 406) eqn:E406; [|destruct (s =? 500) eqn:E500]]]]];
    cbn; intros [= <-]; cbn;
    rewrite ?Z.eqb_eq, ?Z.eqb_neq in *;
    repeat split; intros; try discriminate; try lia; try reflexivity.
Qed.

Lemma error_code_by_status_witness :
  code (Attrs "Forbidden: expired" (Some "SESSION_EXPIRED") (Some 403)) =
    Some "SESSION_EXPIRED" <->
  Response.status_code
    (json_response 403 (VDict [("error", VStr "expired")])) = 403.
Proof.
  apply (error_code_by_status
           (client_of (failing "unreachable"))
           (json_response 403 (VDict [("error", VStr "expired")]))
           [("error", VStr "expired")]
           (SessionExpiredError
              (Attrs "Forbidden: expired" (Some "SESSION_EXPIRED")
                     (Some 403)))).
  - left; reflexivity.
  - reflexivity.
Defined.

(** Outside 406 the classifier reads nothing of the body but the text
    of its [error] field: two responses with the same status code whose
    [error] fields (or the fallback [HTTP <status> error]) format alike
    raise the same exception.  At 406 it reads the two version fields
    and nothing else. *)
Theorem classifier_reads_error_field_only self r r' d d' :
  error_data r d ->
  error_data r' d' ->
  Response.status_code r = Response.status_code r' ->
  let fallback :=
    VStr ("HTTP " ++ string_of_Z (Response.status_code r) ++ " error") in
  (Response.status_code r <> 406 ->
   py_str (field d "error" fallback) = py_str (field d' "error" fallback) ->
   _handle_error_response self r = _handle_error_response self r') /\
  (Response.status_code r = 406 ->
   field d "requestedVersion" (VStr "unknown") =
     field d' "requestedVersion" (VStr "unknown") ->
   field d "supportedVersions" (VList []) =
     field d' "supportedVersions" (VList []) ->
   _handle_error_response self r = _handle_error_response self r').
Proof.
  intros Hd Hd' Hs fallback.
  rewrite (handle_error_response_data self r d Hd),
          (handle_error_response_data self r' d' Hd').
  unfold _handle_error_response.
  cbn [Response.json Response.status_code lift try_except bind ret].
  rewrite !get_field. cbn [bind ret]. rewrite <- Hs. fold fallback.
  split.
  - intros H406 ->. apply Z.eqb_neq in H406. rewrite H406. reflexivity.
  - intros -> -> ->. reflexivity.
Qed.

Lemma classifier_reads_error_field_only_witness :
  _handle_error_response (client_of (failing "unreachable"))
    (json_response 500 (VDict [("error", VStr "boom");
                               ("detail", VInt 7)])) =
  _handle_error_response (client_of (failing "unreachable"))
    (text_response 500 "boom" false).
Proof.
  apply (proj1 (classifier_reads_error_field_only
                  (client_of (failing "unreachable"))
                  (json_response 500 (VDict [("error", VStr "boom");
                                             ("detail", VInt 7)]))
                  (text_response 500 "boom" false)
                  [("error", VStr "boom"); ("detail", VInt 7)]
                  [("error", VStr "boom")]
                  (or_introl eq_refl)
                  (or_intror (ex_intro _ false
                     (ex_intro _ "Expecting value" (conj eq_refl eq_refl))))
                  eq_refl)).
  - discriminate.
  - reflexivity.
Defined.

(** ** The convenience methods: what they report, what they let through *)

(** A swallowed error is reported on standard output: after what
    [get_tool_manifest] printed comes one line with the method's label
    and the message of the exception. *)
Theorem convenience_methods_report self name e :
  result (get_tool_manifest self None) = Raise (Codap e) ->
  stdout (is_tool_available self name) =
    (stdout (get_tool_manifest self None)
     ++ [("Error checking tool availability: " ++ message (attrs_of e))%string])%list
  /\
  stdout (get_tool_schema self name) =
    (stdout (get_tool_manifest self None)
     ++ [("Error getting tool schema: " ++ message (attrs_of e))%string])%list
  /\
  stdout (list_available_tools self) =
    (stdout (get_tool_manifest self None)
     ++ [("Error listing tools: " ++ message (attrs_of e))%string])%list.
Proof.
  intros He.
  unfold is_tool_available, get_tool_schema, list_available_tools.
  rewrite !stdout_try_except, !stdout_bind, !result_bind, He.
  cbn [as_CODAPMetadataError]. rewrite !stdout_print_then.
  rewrite !app_nil_r. repeat split.
Qed.

Lemma convenience_methods_report_witness :
  stdout (is_tool_available (client_of (failing "timed out")) "x") =
    ["Error checking tool availability: Network error: timed out"].
Proof.
  apply (proj1 (convenience_methods_report
                  (client_of (failing "timed out")) "x"
                  (CODAPMetadataError
                     (Attrs "Network error: timed out" None None))
                  eq_refl)).
Defined.

(** Only exceptions of the module are swallowed: any other exception of
    [get_tool_manifest] is raised by the three methods as it is. *)
Theorem convenience_methods_let_through self name e :
  result (get_tool_manifest self None) = Raise e ->
  as_CODAPMetadataError e = None ->
  result (is_tool_available self name) = Raise e /\
  result (get_tool_schema self name) = Raise e /\
  result (list_available_tools self) = Raise e.
Proof.
  intros He Hn.
  unfold is_tool_available, get_tool_schema, list_available_tools.
  rewrite !result_try_except, !result_bind, He, Hn. repeat split.
Qed.

Lemma convenience_methods_let_through_witness :
  result (is_tool_available
            (client_of (answering (json_response 500 (VStr "down")))) "x") =
    Raise AttributeError /\
  result (get_tool_schema
            (client_of (answering (json_response 500 (VStr "down")))) "x") =
    Raise AttributeError /\
  result (list_available_tools
            (client_of (answering (json_response 500 (VStr "down"))))) =
    Raise AttributeError.
Proof.
  apply (convenience_methods_let_through
           (client_of (answering (json_response 500 (VStr "down")))) "x"
           AttributeError); reflexivity.
Defined.

(** A returned body without the key [tools] makes the three methods
    raise [KeyError]; a returned body that is no dictionary makes them
    raise [TypeError].  Neither is swallowed. *)
Theorem convenience_methods_need_tools self name v :
  result (get_tool_manifest self None) = Return v ->
  (forall d, v = VDict d -> lookup d "tools" = None ->
     result (is_tool_available self name) = Raise (KeyError "tools") /\
     result (get_tool_schema self name) = Raise (KeyError "tools") /\
     result (list_available_tools self) = Raise (KeyError "tools")) /\
  ((forall d, v <> VDict d) ->
     result (is_tool_available self name) = Raise TypeError /\
     result (get_tool_schema self name) = Raise TypeError /\
     result (list_available_tools self) = Raise TypeError).
Proof.
  intros Hv.
  unfold is_tool_available, get_tool_schema, list_available_tools.
  rewrite !result_try_except, !result_bind, Hv. split.
  - intros d -> Hd. unfold subscript. rewrite Hd. repeat split.
  - intros Hn. destruct v; try (repeat split; reflexivity).
    now destruct (Hn items).
Qed.

Lemma convenience_methods_need_tools_witness :
  result (list_available_tools
            (client_of (answering (json_response 200 (VDict []))))) =
    Raise (KeyError "tools") /\
  result (list_available_tools
            (client_of (answering (json_response 200 (VList []))))) =
    Raise TypeError.
Proof.
  split.
  - apply (proj1 (convenience_methods_need_tools
                    (client_of (answering (json_response 200 (VDict []))))
                    "x" (VDict []) eq_refl) [] eq_refl eq_refl).
  - apply (proj2 (convenience_methods_need_tools
                    (client_of (answering (json_response 200 (VList []))))
                    "x" (VList []) eq_refl)).
    discriminate.
Defined.

(** [any] and the [for] loop stop at the first tool with the name: what
    follows it in the list is not looked at, even if it is no tool. *)
Lemma any_name_is_app items ts rest name :
  Forall2 is_tool items ts ->
  any_name_is (items ++ rest) name =
  if existsb (fun t => String.eqb (tool_name t) name) ts
  then ret true else any_name_is rest name.
Proof.
  induction 1 as [|v t items ts (f & -> & Hn & _) _ IH]; [reflexivity|].
  cbn [app any_name_is subscript existsb]. rewrite Hn. cbn.
  destruct (String.eqb (tool_name t) name); [reflexivity|].
  rewrite IH.
  destruct (existsb _ ts); [reflexivity|].
  now destruct (any_name_is rest name).
Qed.

Theorem is_tool_available_stops_at_match self name fields items ts rest :
  result (get_tool_manifest self None) = Return (VDict fields) ->
  lookup fields "tools" = Some (VList (items ++ rest)) ->
  Forall2 is_tool items ts ->
  (existsb (fun t => String.eqb (tool_name t) name) ts = true ->
   result (is_tool_available self name) = Return true) /\
  (existsb (fun t => String.eqb (tool_name t) name) ts = false ->
   forall bad rest',
     rest = VDict bad :: rest' -> lookup bad "name" = None ->
     result (is_tool_available self name) = Raise (KeyError "name")).
Proof.
  intros Hm Ht Hitems.
  assert (Hres :
    result (is_tool_available self name) =
    result (try_except
              (if existsb (fun t => String.eqb (tool_name t) name) ts
               then ret true else any_name_is rest name)
              (fun e =>
                 match as_CODAPMetadataError e with
                 | Some msg =>
                     Some (print ("Error checking tool availability: "
                                    ++ msg) ;;
                           ret false)
                 | None => None
                 end))).
  { unfold is_tool_available. apply result_try_ext.
    rewrite (result_bind_Return _ _ _ Hm).
    unfold subscript. rewrite Ht.
    rewrite (result_bind_Return _ _ (VList (items ++ rest)))
      by reflexivity.
    rewrite (result_bind_Return _ _ (items ++ rest)%list) by reflexivity.
    now rewrite (any_name_is_app _ _ _ _ Hitems). }
  rewrite Hres. split.
  - intros ->. reflexivity.
  - intros -> bad rest' -> Hbad. cbn [any_name_is subscript].
    rewrite Hbad. reflexivity.
Qed.

Lemma is_tool_available_stops_at_match_witness :
  result (is_tool_available
            (client_of (answering (json_response 200 manifest_x_then_junk)))
            "x") = Return true.
Proof.
  refine (proj1 (is_tool_available_stops_at_match
                   (client_of (answering
                      (json_response 200 manifest_x_then_junk)))
                   "x"
                   [("tools",
                     VList [VDict [("name", VStr "x");
                                   ("description", VStr "the tool x")];
                            VInt 0])]
                   [VDict [("name", VStr "x");
                           ("description", VStr "the tool x")]]
                   [Tool "x" "the tool x" None]
                   [VInt 0] eq_refl eq_refl _) eq_refl).
  constructor; [|constructor].
  exists [("name", VStr "x"); ("description", VStr "the tool x")].
  repeat split.
Defined.

(** ** [get_tool_schema] *)

(** On a manifest of the data model the method returns the schema of
    the first tool with the name.  It returns [None] both when that tool
    has no schema and when no tool has the name: the two cases cannot be
    told apart from the result. *)
Theorem get_tool_schema_on_manifest self name v m :
  result (get_tool_manifest self None) = Return v ->
  is_manifest v m ->
  result (get_tool_schema self name) = Return (schema_of (tools m) name) /\
  (existsb (fun t => String.eqb (tool_name t) name) (tools m) = false ->
   result (get_tool_schema self name) = Return VNone) /\
  (forall t,
     find (fun t => String.eqb (tool_name t) name) (tools m) = Some t ->
     tool_inputSchema t = None ->
     result (get_tool_schema self name) = Return VNone).
Proof.
  intros Hv Hm.
  rewrite (get_tool_schema_success _ name _ _ Hv Hm).
  split; [reflexivity|]. unfold schema_of. split.
  - intros Hnone.
    destruct (find _ (tools m)) as [t|] eqn:Hf; [|reflexivity].
    apply find_some in Hf. destruct Hf as [Hin Heq].
    assert (Hex : existsb (fun t => String.eqb (tool_name t) name)
                    (tools m) = true)
      by (apply existsb_exists; now exists t).
    congruence.
  - intros t -> ->. reflexivity.
Qed.

Lemma get_tool_schema_on_manifest_witness :
  result (get_tool_schema
            (client_of (answering (json_response 200 manifest_x))) "x") =
    Return VNone /\
  result (get_tool_schema
            (client_of (answering (json_response 200 manifest_x))) "y") =
    Return VNone.
Proof.
  assert (Hm : is_manifest manifest_x
                 (Manifest "1.0.0" [Tool "x" "the tool x" None])).
  { exists [("apiVersion", VStr "1.0.0");
            ("tools", VList [VDict [("name", VStr "x");
                                    ("description", VStr "the tool x")]])],
           [VDict [("name", VStr "x");
                   ("description", VStr "the tool x")]].
    repeat split. constructor; [|constructor].
    eexists; repeat split. }
  split.
  - apply (proj2 (proj2 (get_tool_schema_on_manifest
                           (client_of (answering
                              (json_response 200 manifest_x)))
                           "x" manifest_x _ eq_refl Hm))
             (Tool "x" "the tool x" None)); reflexivity.
  - apply (proj1 (proj2 (get_tool_schema_on_manifest
                           (client_of (answering
                              (json_response 200 manifest_x)))
                           "y" manifest_x _ eq_refl Hm))).
    reflexivity.
Defined.

Lemma schema_of_found ts name :
  schema_of ts name <> VNone ->
  existsb (fun t => String.eqb (tool_name t) name) ts = true.
Proof.
  unfold schema_of. induction ts as [|t ts IH]; cbn.
  - intros H; now contradiction H.
  - destruct (String.eqb (tool_name t) name); [reflexivity|]. exact IH.
Qed.

(** On a manifest of the data model, a schema is returned only for a
    tool that [is_tool_available] finds: a result of [get_tool_schema]
    other than [None] means [is_tool_available] returns [True]. *)
Theorem schema_implies_available self name v m s :
  result (get_tool_manifest self None) = Return v ->
  is_manifest v m ->
  result (get_tool_schema self name) = Return s ->
  s <> VNone ->
  result (is_tool_available self name) = Return true.
Proof.
  intros Hv Hm Hs Hne.
  rewrite (get_tool_schema_success _ name _ _ Hv Hm) in Hs.
  injection Hs as <-. apply schema_of_found in Hne.
  destruct Hm as (fields & items & -> & _ & Htools & Hitems).
  unfold is_tool_available. apply result_try_Return.
  rewrite (result_bind_Return _ _ _ Hv).
  unfold subscript; rewrite Htools.
  rewrite (result_bind_Return _ _ (VList items)) by reflexivity.
  rewrite (result_bind_Return _ _ items) by reflexivity.
  rewrite (any_name_is_tools _ _ _ Hitems), Hne. reflexivity.
Qed.

Lemma schema_implies_available_witness :
  result (is_tool_available
            (client_of (answering (json_response 200 manifest_schema)))
            "x") = Return true.
Proof.
  apply (schema_implies_available
           (client_of (answering (json_response 200 manifest_schema)))
           "x" manifest_schema
           (Manifest "1.0.0"
              [Tool "x" "the tool x" (Some (VDict [("type", VStr "object")]))])
           (VDict [("type", VStr "object")])).
  - reflexivity.
  - exists [("apiVersion", VStr "1.0.0");
            ("tools",
             VList [VDict [("name", VStr "x");
                           ("description", VStr "the tool x");
                           ("inputSchema",
                            VDict [("type", VStr "object")])]])],
           [VDict [("name", VStr "x");
                   ("description", VStr "the tool x");
                   ("inputSchema", VDict [("type", VStr "object")])]].
    repeat split. constructor; [|constructor].
    eexists; repeat split.
  - reflexivity.
  - discriminate.
Defined.

(** ** [test_version_negotiation] *)

(** A returned body without [apiVersion] is no failure result: the
    method raises [KeyError], and [TypeError] when the body is no
    dictionary. *)
Theorem negotiation_needs_apiVersion self requested v :
  result (get_tool_manifest self (Some requested)) = Return v ->
  (forall d, v = VDict d -> lookup d "apiVersion" = None ->
     result (test_version_negotiation self requested) =
     Raise (KeyError "apiVersion")) /\
  ((forall d, v <> VDict d) ->
     result (test_version_negotiation self requested) = Raise TypeError).
Proof.
  intros Hv. unfold test_version_negotiation.
  rewrite result_try_except, result_bind, Hv. split.
  - intros d -> Hd. unfold subscript. rewrite Hd. reflexivity.
  - intros Hn. destruct v; try reflexivity. now destruct (Hn items).
Qed.

Lemma negotiation_needs_apiVersion_witness :
  result (test_version_negotiation
            (client_of (answering (json_response 200 (VDict []))))
            "1.0.0") = Raise (KeyError "apiVersion") /\
  result (test_version_negotiation
            (client_of (answering (json_response 200 VNone)))
            "1.0.0") = Raise TypeError.
Proof.
  split.
  - apply (proj1 (negotiation_needs_apiVersion
                    (client_of (answering (json_response 200 (VDict []))))
                    "1.0.0" (VDict []) eq_refl) [] eq_refl eq_refl).
  - apply (proj2 (negotiation_needs_apiVersion
                    (client_of (answering (json_response 200 VNone)))
                    "1.0.0" VNone eq_refl)).
    discriminate.
Defined.

(** From the answer to the result: at status 406 the failure holds the
    body's [requestedVersion] (or ["unknown"]) and [supportedVersions]
    (or the empty list); the version that was asked for is not what the
    result reports. *)
Theorem negotiation_on_406 self requested r d :
  Session.get (session self) (build_request self (Some requested)) =
    Return r ->
  Response.status_code r = 406 ->
  error_data r d ->
  let requested_version := field d "requestedVersion" (VStr "unknown") in
  let supported_versions := field d "supportedVersions" (VList []) in
  result (test_version_negotiation self requested) =
  Return (VersionNegotiationResult.mk
            false VNone
            (VStr ("Unsupported version: " ++ py_str requested_version))
            requested_version supported_versions VNone).
Proof.
  intros Hget Hs Hd rv sv.
  pose proof (version_not_supported_fields self r d Hd Hs) as He.
  cbn zeta in He. fold rv sv in He.
  assert (Hm : result (get_tool_manifest self (Some requested)) =
               Raise (Codap (VersionNotSupportedError
                        (Attrs ("Unsupported version: " ++ py_str rv)
                               (Some "VERSION_NOT_SUPPORTED") None) rv sv))).
  { eapply get_tool_manifest_error; eauto. rewrite Hs; discriminate. }
  unfold test_version_negotiation.
  rewrite result_try_except, result_bind, Hm. reflexivity.
Qed.

Lemma negotiation_on_406_witness :
  result (test_version_negotiation
            (client_of (answering (text_response 406 "" true))) "2.0.0") =
  Return (VersionNegotiationResult.mk
            false VNone (VStr "Unsupported version: unknown")
            (VStr "unknown") (VList []) VNone).
Proof.
  apply (negotiation_on_406
           (client_of (answering (text_response 406 "" true))) "2.0.0"
           (text_response 406 "" true)
           [("error", VStr "Unknown error")]).
  - reflexivity.
  - reflexivity.
  - right. exists true, "Expecting value". split; reflexivity.
Defined.

(** A transport failure shows the asymmetry of the facade: the
    negotiation raises the module's network error, the convenience
    methods return their defaults. *)
Theorem transport_failure_in_facade self requested name msg :
  (forall request,
     Session.get (session self) request = Raise (RequestException msg)) ->
  result (test_version_negotiation self requested) =
    Raise (Codap (CODAPMetadataError
                    (Attrs ("Network error: " ++ msg) None None))) /\
  result (is_tool_available self name) = Return false /\
  result (get_tool_schema self name) = Return VNone /\
  result (list_available_tools self) = Return [].
Proof.
  intros Hget.
  assert (Hm : forall v,
            result (get_tool_manifest self v) =
            Raise (Codap (CODAPMetadataError
                            (Attrs ("Network error: " ++ msg) None None)))).
  { intros v. apply get_tool_manifest_transport, Hget. }
  unfold test_version_negotiation, is_tool_available, get_tool_schema,
    list_available_tools.
  rewrite !result_try_except, !result_bind, !Hm. repeat split.
Qed.

Lemma transport_failure_in_facade_witness :
  result (test_version_negotiation (client_of (failing "refused")) "1.0.0")
    = Raise (Codap (CODAPMetadataError
                      (Attrs "Network error: refused" None None))) /\
  result (is_tool_available (client_of (failing "refused")) "x") =
    Return false /\
  result (get_tool_schema (client_of (failing "refused")) "x") =
    Return VNone /\
  result (list_available_tools (client_of (failing "refused"))) = Return [].
Proof.
  apply (transport_failure_in_facade
           (client_of (failing "refused")) "1.0.0" "x" "refused").
  reflexivity.
Defined.

(** ** The constructor *)

Lemma rstrip_slash_slashes n : rstrip_slash (slashes n) = EmptyString.
Proof.
  induction n as [|n IH]; [reflexivity|].
  cbn [slashes rstrip_slash]. now rewrite IH.
Qed.

Lemma rstrip_slash_app_slashes s n :
  rstrip_slash (s ++ slashes n) = rstrip_slash s.
Proof.
  induction s as [|c s IH]; cbn [append rstrip_slash].
  - apply rstrip_slash_slashes.
  - now rewrite IH.
Qed.

(** Trailing slashes of the base URL do not matter: with or without
    them the constructor builds the same client; and the base URL it
    keeps has nothing left to strip. *)
Theorem trailing_slashes_ignored fresh base code_ seconds n :
  CODAPMetadataClient_init fresh (base ++ slashes n) code_ seconds =
    CODAPMetadataClient_init fresh base code_ seconds /\
  rstrip_slash (base_url (CODAPMetadataClient_init fresh base code_ seconds))
    = base_url (CODAPMetadataClient_init fresh base code_ seconds).
Proof.
  unfold CODAPMetadataClient_init. cbn [base_url]. split.
  - now rewrite rstrip_slash_app_slashes.
  - destruct (rstrip_slash_suffix base) as [k Hk].
    pose proof (rstrip_slash_app_slashes (rstrip_slash base) k) as H.
    rewrite <- Hk in H. now symmetry.
Qed.

Lemma lookup_dict_set_same {A} (d : list (string * A)) k v :
  lookup (dict_set d k v) k = Some v.
Proof.
  induction d as [|[k' v'] d IH]; cbn.
  - now rewrite String.eqb_refl.
  - destruct (String.eqb k' k) eqn:E; cbn; rewrite E; [reflexivity|].
    exact IH.
Qed.

Lemma lookup_dict_set_other {A} (d : list (string * A)) k k' v :
  k <> k' -> lookup (dict_set d k v) k' = lookup d k'.
Proof.
  intros Hne. induction d as [|[k0 v0] d IH]; cbn.
  - apply String.eqb_neq in Hne. now rewrite Hne.
  - destruct (String.eqb k0 k) eqn:E; cbn.
    + apply String.eqb_eq in E; subst k0.
      apply String.eqb_neq in Hne. now rewrite Hne.
    + now rewrite IH.
Qed.

(** Whatever headers the fresh session has, the client's session has
    [Content-Type: application/json] and the client's [User-Agent]; its
    transport is that of the fresh session. *)
Theorem init_session_headers fresh base code_ seconds :
  let self := CODAPMetadataClient_init fresh base code_ seconds in
  lookup (Session.headers (session self)) "Content-Type" =
    Some "application/json" /\
  lookup (Session.headers (session self)) "User-Agent" =
    Some "CODAP-Metadata-Client-Python/1.0.0" /\
  Session.get (session self) = Session.get fresh.
Proof.
  cbn. repeat split.
  - rewrite lookup_dict_set_other by discriminate.
    apply lookup_dict_set_same.
  - apply lookup_dict_set_same.
Qed.

(** ** [test_error_scenarios] *)

Lemma get_tool_manifest_transport_eq self api_version msg :
  Session.get (session self) (build_request self api_version) =
    Raise (RequestException msg) ->
  get_tool_manifest self api_version =
  ([], Raise (Codap (CODAPMetadataError
                       (Attrs ("Network error: " ++ msg) None None)))).
Proof.
  intros Hget. unfold get_tool_manifest. rewrite Hget. reflexivity.
Qed.

Lemma swallow_block (m : Py value) label :
  result (try_except (m ;; ret tt) (print_module_error label)) = Return tt \/
  exists e,
    as_CODAPMetadataError e = None /\
    result (try_except (m ;; ret tt) (print_module_error label)) = Raise e.
Proof.
  rewrite result_try_except, result_bind.
  destruct (result m) as [a|e]; [now left|].
  unfold print_module_error.
  destruct (as_CODAPMetadataError e) eqn:E; [now left|].
  right. now exists e.
Qed.

(** The function swallows every exception of the module: it returns, or
    it raises an exception that is not of the module. *)
Theorem test_error_scenarios_outcome requests_Session :
  result (test_error_scenarios requests_Session) = Return tt \/
  exists e,
    as_CODAPMetadataError e = None /\
    result (test_error_scenarios requests_Session) = Raise e.
Proof.
  unfold test_error_scenarios.
  rewrite result_print_then, result_bind.
  match goal with
  | |- context [try_except (?m ;; ret tt) (print_module_error ?l)] =>
      destruct (swallow_block m l) as [-> | (e & He & ->)]
  end; [|right; now exists e].
  rewrite result_bind.
  match goal with
  | |- context [try_except (?m ;; ret tt) (print_module_error ?l)] =>
      destruct (swallow_block m l) as [-> | (e & He & ->)]
  end; [now left | right; now exists e].
Qed.

(** When the transport fails for both clients, the function returns and
    prints four lines; the line of the second client says [Network
    error] twice, once as its label and once from [get_tool_manifest]. *)
Theorem test_error_scenarios_transport requests_Session msg1 msg2 :
  Session.get requests_Session
    (Request.mk
       "https://your-domain.com/api/sessions/invalid-session/metadata"
       [] 30) = Raise (RequestException msg1) ->
  Session.get requests_Session
    (Request.mk "not-a-url/api/sessions/session-code/metadata" [] 30) =
    Raise (RequestException msg2) ->
  test_error_scenarios requests_Session =
  ([newline ++ "=== Testing Error Scenarios ===";
    "Invalid session error: Network error: " ++ msg1;
    "Network error: Network error: " ++ msg2;
    "For expired session testing, use a session code that has expired"],
   Return tt).
Proof.
  intros H1 H2. unfold test_error_scenarios.
  rewrite (get_tool_manifest_transport_eq
             (CODAPMetadataClient_init requests_Session
                "https://your-domain.com" "invalid-session" default_timeout)
             None msg1 H1).
  rewrite (get_tool_manifest_transport_eq
             (CODAPMetadataClient_init requests_Session
                "not-a-url" "session-code" default_timeout)
             None msg2 H2).
  reflexivity.
Qed.

Lemma test_error_scenarios_transport_witness :
  test_error_scenarios (failing "refused") =
  ([newline ++ "=== Testing Error Scenarios ===";
    "Invalid session error: Network error: refused";
    "Network error: Network error: refused";
    "For expired session testing, use a session code that has expired"],
   Return tt).
Proof.
  apply (test_error_scenarios_transport (failing "refused")
           "refused" "refused"); reflexivity.
Defined.
